(** * pygarl middlewares: a verification model of [pygarl/middlewares.py]

    The file embeds the three middleware classes of [pygarl/middlewares.py]:
    [GradientThresholdMiddleware] (the thresholding-and-grouping state
    machine), [DelayGrouperMiddleware] (a stub that raises) and
    [PlotterMiddleware] (plot and forward).

    Conventions of the embedding:
    - a Python object is a record of its attributes; a method is a computation
      in the monad [M Self], which threads the object (attribute assignments
      are state updates) and carries a raised exception next to the state the
      object had when it was raised;
    - a numpy float is a primitive binary64 float of the kernel, so that the
      comparison [average >= self.threshold] has the IEEE meaning (it is false
      as soon as one side is NaN);
    - a sample's [data] is a numpy array whose first axis is time: a list of
      rows, the row type being a parameter (one vector of readings, its channel
      count fixed by the type). [np.concatenate] along the first axis is list
      append, [np.array(.., copy=True)] and [np.copy] are the identity on
      values;
    - [print] writes to the standard output, which is not part of the modelled
      state. *)

From Stdlib Require Import String ZArith List Bool Lia Floats.
Import ListNotations.

Set Implicit Arguments.
Local Open Scope Z_scope.

(** ** Exceptions *)

Inductive exn : Type :=
| NotImplementedError (msg : string)
| CollaboratorError (msg : string).

(** ** The object monad: state passing with exceptions *)

Definition M (Self A : Type) : Type := Self -> (exn + A) * Self.

Definition ret {Self A : Type} (a : A) : M Self A :=
  fun self => (inr a, self).

Definition bind {Self A B : Type} (c : M Self A) (k : A -> M Self B) : M Self B :=
  fun self =>
    match c self with
    | (inl e, self') => (inl e, self')
    | (inr a, self') => k a self'
    end.

Definition raise {Self A : Type} (e : exn) : M Self A :=
  fun self => (inl e, self).

Definition get {Self : Type} : M Self Self :=
  fun self => (inr self, self).

Definition put {Self : Type} (self' : Self) : M Self unit :=
  fun _ => (inr tt, self').

(** The result of a call to a collaborator, which returns or raises. *)
Definition call {Self A : Type} (r : exn + A) : M Self A :=
  fun self => (r, self).

Definition when {Self : Type} (b : bool) (c : M Self unit) : M Self unit :=
  if b then c else ret tt.

Declare Scope monad_scope.
Delimit Scope monad_scope with monad.
Notation "x <- c ;; k" := (bind c (fun x => k))
  (at level 61, c at next level, right associativity) : monad_scope.
Notation "c ;; k" := (bind c (fun _ => k))
  (at level 61, right associativity) : monad_scope.
Local Open Scope monad_scope.

(** [print(...)]: no effect on the object. *)
Definition print {Self : Type} (line : string) : M Self unit := ret tt.

(** ** [pygarl.base.Sample] and the operations the middlewares call on it *)

(** Modelled from the spec: the class [Sample] of [pygarl.base], which this
    file imports. A sample is an ordered sequence of rows of readings, one per
    time step, with an optional gesture identifier; the middlewares read its
    attributes [data] and [gesture_id] and build one with
    [Sample(data=.., gesture_id=..)]. *)
Record Sample (Row GestureId : Type) : Type := mkSample {
  data : list Row;
  gesture_id : option GestureId
}.

Arguments mkSample {Row GestureId} data gesture_id.

(** [Sample.gradient] and [Sample.plot] live in [pygarl.base] and
    [np.average] in numpy: they are taken as parameters, each returning or
    raising. *)
Class SampleOps (Row GestureId : Type) : Type := {
  Gradient : Type;
  gradient : Sample Row GestureId -> exn + Gradient;
  np_average : Gradient -> exn + float;
  plot : Sample Row GestureId -> exn + unit
}.

(** [np.absolute] on a float scalar. *)
Definition np_absolute (x : float) : float := PrimFloat.abs x.

(** [a >= b] on floats. *)
Definition float_ge (a b : float) : bool := PrimFloat.leb b a.

(** [a < b] on floats. *)
Definition float_lt (a b : float) : bool := PrimFloat.ltb a b.

(** ** [class GradientThresholdMiddleware] *)

Module GradientThresholdMiddleware.

Section Class.
Context {Row GestureId : Type} {ops : SampleOps Row GestureId}.

(** The attributes of an instance. *)
Record instance : Type := mkInstance {
  threshold : float;
  verbose : bool;
  group : bool;
  sample_group_delay : Z;
  buffer : option (list Row);
  sample_group_delay_counter : Z
}.

(** [self] after [self.buffer = b]. *)
Definition with_buffer (b : option (list Row)) (self : instance) : instance :=
  mkInstance (threshold self) (verbose self) (group self)
    (sample_group_delay self) b (sample_group_delay_counter self).

(** [self] after [self.sample_group_delay_counter = n]. *)
Definition with_counter (n : Z) (self : instance) : instance :=
  mkInstance (threshold self) (verbose self) (group self)
    (sample_group_delay self) (buffer self) n.

Definition set_buffer (b : option (list Row)) : M instance unit :=
  fun self => (inr tt, with_buffer b self).

Definition set_sample_group_delay_counter (n : Z) : M instance unit :=
  fun self => (inr tt, with_counter n self).

(** [__init__(self, threshold=10, group=True, sample_group_delay=2,
    verbose=False)] *)
Definition __init__ (threshold : float) (group : bool) (sample_group_delay : Z)
    (verbose : bool) : instance :=
  mkInstance threshold verbose group sample_group_delay None 0.

(** The instance built with the default arguments. *)
Definition init_default : instance := __init__ 10%float true 2 false.

(** [add_sample_to_buffer(self, sample)] *)
Definition add_sample_to_buffer (sample : Sample Row GestureId) : M instance unit :=
  let sample_data := data sample in
  self <- get ;;
  match buffer self with
  | None => set_buffer (Some sample_data)
  | Some b => set_buffer (Some (b ++ sample_data))
  end.

(** [delete_buffer(self)] *)
Definition delete_buffer : M instance unit := set_buffer None.

(** [abs(mean(gradient(sample)))], the first three statements of
    [process_sample]. *)
Definition magnitude (sample : Sample Row GestureId) : exn + float :=
  match gradient sample with
  | inl e => inl e
  | inr g =>
      match np_average g with
      | inl e => inl e
      | inr average => inr (np_absolute average)
      end
  end.

(** [process_sample(self, sample)] *)
Definition process_sample (sample : Sample Row GestureId)
    : M instance (option (Sample Row GestureId)) :=
  gradient_ <- call (gradient sample) ;;
  average <- call (np_average gradient_) ;;
  let average := np_absolute average in
  self <- get ;;
  when (verbose self) (print "GTM Average:") ;;
  is_allowed_to_pass <-
    (if float_ge average (threshold self) then
       set_sample_group_delay_counter 0 ;;
       ret true
     else
       if group self
          && (sample_group_delay_counter self <? sample_group_delay self)
       then
         set_sample_group_delay_counter (sample_group_delay_counter self + 1) ;;
         ret true
       else ret false) ;;
  if is_allowed_to_pass : bool then
    if negb (group self) then ret (Some sample)
    else
      add_sample_to_buffer sample ;;
      when (verbose self) (print "GTM: Suppressed sample to be grouped.") ;;
      ret None
  else
    if negb (group self) then ret None
    else
      self <- get ;;
      match buffer self with
      | Some b =>
          let grouped_data := b in
          delete_buffer ;;
          let new_sample := mkSample grouped_data (gesture_id sample) in
          ret (Some new_sample)
      | None => ret None
      end.

(** A driver that feeds the samples to one instance, one call after the
    other, and collects what each call returned or raised. *)
Fixpoint run (self : instance) (samples : list (Sample Row GestureId))
    : list (exn + option (Sample Row GestureId)) * instance :=
  match samples with
  | [] => ([], self)
  | sample :: rest =>
      let '(r, self') := process_sample sample self in
      let '(rs, self'') := run self' rest in
      (r :: rs, self'')
  end.

End Class.

Arguments instance : clear implicits.

End GradientThresholdMiddleware.

(** ** [class DelayGrouperMiddleware] *)

Module DelayGrouperMiddleware.

Record instance : Type := mkInstance {
  delay : Z
}.

(** [__init__(self, delay=300)] *)
Definition __init__ (delay : Z) : instance := mkInstance delay.

(** The instance built with the default argument. *)
Definition init_default : instance := __init__ 300.

(** [process_sample(self, sample)] *)
Definition process_sample {Row GestureId : Type} (sample : Sample Row GestureId)
    : M instance (option (Sample Row GestureId)) :=
  raise (NotImplementedError "DelayGrouperMiddleware is not implemented yet").

End DelayGrouperMiddleware.

(** ** [class PlotterMiddleware] *)

Module PlotterMiddleware.

Record instance : Type := mkInstance { }.

(** [__init__(self)] *)
Definition __init__ : instance := mkInstance.

(** [process_sample(self, sample)] *)
Definition process_sample {Row GestureId : Type} {ops : SampleOps Row GestureId}
    (sample : Sample Row GestureId) : M instance (option (Sample Row GestureId)) :=
  call (plot sample) ;;
  ret (Some sample).

End PlotterMiddleware.

(** ** Reading a sample against a threshold

    [magnitude >= T] and [magnitude < T] are read on the float the code
    computes; both are false when a collaborator raised, and both are false on
    NaN. *)

Section Classification.
Context {Row GestureId : Type} {ops : SampleOps Row GestureId}.

Definition crosses (T : float) (sample : Sample Row GestureId) : bool :=
  match GradientThresholdMiddleware.magnitude sample with
  | inr m => float_ge m T
  | inl _ => false
  end.

Definition is_below (T : float) (sample : Sample Row GestureId) : bool :=
  match GradientThresholdMiddleware.magnitude sample with
  | inr m => float_lt m T
  | inl _ => false
  end.

(** The rows held by a buffer, none when it is [None]. *)
Definition rows (b : option (list Row)) : list Row :=
  match b with
  | Some d => d
  | None => []
  end.

(** [self] once the data of [samples] has been appended to its buffer, one
    sample after the other, and its counter set to [c]. *)
Definition absorbed (self : GradientThresholdMiddleware.instance Row)
    (samples : list (Sample Row GestureId)) (c : Z)
    : GradientThresholdMiddleware.instance Row :=
  GradientThresholdMiddleware.with_buffer
    (Some (rows (GradientThresholdMiddleware.buffer self)
           ++ concat (map (@data Row GestureId) samples)))
    (GradientThresholdMiddleware.with_counter c self).

(** The three things a call that returns can have done. *)
Inductive outcome : Type := PassThrough | Suppression | Flush.

Definition outcome_is (self : GradientThresholdMiddleware.instance Row)
    (sample : Sample Row GestureId) (out : option (Sample Row GestureId))
    (self' : GradientThresholdMiddleware.instance Row) (o : outcome) : Prop :=
  match o with
  | PassThrough =>
      GradientThresholdMiddleware.group self = false /\ out = Some sample
  | Suppression => out = None
  | Flush =>
      GradientThresholdMiddleware.group self = true /\
      exists b,
        GradientThresholdMiddleware.buffer self = Some b /\
        out = Some (mkSample b (gesture_id sample)) /\
        GradientThresholdMiddleware.buffer self' = None
  end.

End Classification.

(** ** One-channel collaborators, to run the model on concrete samples

    A sample holds one reading per time step. [np.gradient] along the only
    axis takes one-sided differences at both ends and central differences
    inside, and raises [ValueError] below two readings; [np.average] divides
    the sum by the count. The sum is taken from left to right, which is the
    order numpy follows below eight values; the samples below have two
    readings. *)

Module OneChannel.

Local Open Scope float_scope.

Fixpoint np_gradient_from (prev cur : float) (rest : list float) : list float :=
  match rest with
  | [] => [cur - prev]
  | next :: rest' => ((next - prev) / 2) :: np_gradient_from cur next rest'
  end.

Definition np_gradient (f : list float) : exn + list float :=
  match f with
  | f0 :: f1 :: rest => inr ((f1 - f0) :: np_gradient_from f0 f1 rest)
  | _ => inl (CollaboratorError "ValueError")
  end.

Definition np_sum (l : list float) : float :=
  fold_left PrimFloat.add l 0.

Definition np_mean (l : list float) : float :=
  np_sum l / PrimFloat.of_uint63 (Uint63.of_Z (Z.of_nat (List.length l))).

#[export] Instance ops : SampleOps float string := {
  Gradient := list float;
  gradient := fun sample => np_gradient (data sample);
  np_average := fun g => inr (np_mean g);
  plot := fun _ => inr tt
}.

(** A sample of two readings [0, m]: its gradient is [m, m] and its
    magnitude [abs m]. *)
Definition ramp (m : float) (g : string) : Sample float string :=
  mkSample [0; m] (Some g).

(** The scenario of the specification: magnitudes 15, 3, 4, 2. *)
Definition s1 : Sample float string := ramp 15 "g1".
Definition s2 : Sample float string := ramp 3 "g1".
Definition s3 : Sample float string := ramp 4 "g1".
Definition s4 : Sample float string := ramp 2 "g2".

(** A sample with a single reading: [gradient] raises on it. *)
Definition short : Sample float string := mkSample [1] (Some "g0"%string).

End OneChannel.

(** * Properties *)

(** ** Float comparison: [a < b] excludes [a >= b] *)

Lemma SFcompare_Lt_swap (x y : spec_float) :
  SFcompare x y = Some Lt -> SFcompare y x = Some Gt.
Proof.
  destruct x as [sx|sx| |sx mx ex], y as [sy|sy| |sy my ey]; simpl;
    try discriminate;
    try (destruct sx; simpl; congruence);
    try (destruct sy; simpl; congruence);
    try (destruct sx, sy; simpl; congruence).
  rewrite (Z.compare_antisym ex ey).
  change (Pos.compare_cont Eq my mx) with (Pos.compare_cont (CompOpp Eq) my mx).
  rewrite <- (Pos.compare_cont_antisym mx my Eq).
  destruct sx, sy; try congruence;
    destruct (ex ?= ey)%Z; simpl; try congruence;
    destruct (Pos.compare_cont Eq mx my); simpl; congruence.
Qed.

Lemma float_lt_not_ge (a b : float) :
  float_lt a b = true -> float_ge a b = false.
Proof.
  unfold float_lt, float_ge. rewrite ltb_spec, leb_spec.
  unfold SFltb, SFleb.
  destruct (SFcompare (Prim2SF a) (Prim2SF b)) as [[| |]|] eqn:E;
    try discriminate.
  intros _. rewrite (SFcompare_Lt_swap _ _ E). reflexivity.
Qed.

(** ** [GradientThresholdMiddleware]: one call of [process_sample] *)

Section GradientThreshold.
Context {Row GestureId : Type} {ops : SampleOps Row GestureId}.
Import GradientThresholdMiddleware.

Implicit Types (sample : Sample Row GestureId) (self : instance Row).
Implicit Types (T m : float) (e : exn).

Ltac run_monad :=
  cbv [process_sample add_sample_to_buffer delete_buffer set_buffer
       set_sample_group_delay_counter bind ret call get when print].

Lemma crosses_magnitude T sample :
  crosses T sample = true ->
  exists m, magnitude sample = inr m /\ float_ge m T = true.
Proof.
  unfold crosses. destruct (magnitude sample) as [e|m]; [discriminate|].
  intros H. exists m. split; [reflexivity|exact H].
Qed.

Lemma is_below_magnitude T sample :
  is_below T sample = true ->
  exists m, magnitude sample = inr m /\ float_lt m T = true
            /\ float_ge m T = false.
Proof.
  unfold is_below. destruct (magnitude sample) as [e|m]; [discriminate|].
  intros H. exists m. repeat split; [exact H|apply float_lt_not_ge, H].
Qed.

Lemma is_below_not_crosses T sample :
  is_below T sample = true -> crosses T sample = false.
Proof.
  intros H. destruct (is_below_magnitude _ _ H) as (m & Hm & _ & Hge).
  unfold crosses. rewrite Hm. exact Hge.
Qed.

(** A collaborator's exception leaves the call at once, before any
    attribute is assigned. *)
Lemma process_sample_raises sample self e :
  magnitude sample = inl e ->
  process_sample sample self = (inl e, self).
Proof.
  unfold magnitude. run_monad.
  destruct (gradient sample) as [e1|g]; [congruence|].
  destruct (np_average g) as [e2|a]; congruence.
Qed.

(** The four ways through [process_sample] once the magnitude is known. *)
Lemma process_sample_returns sample self m :
  magnitude sample = inr m ->
  process_sample sample self =
    if float_ge m (threshold self) then
      if group self then
        (inr None,
         with_buffer (Some (rows (buffer self) ++ data sample))
           (with_counter 0 self))
      else (inr (Some sample), with_counter 0 self)
    else if group self then
      if sample_group_delay_counter self <? sample_group_delay self then
        (inr None,
         with_buffer (Some (rows (buffer self) ++ data sample))
           (with_counter (sample_group_delay_counter self + 1) self))
      else
        match buffer self with
        | Some b =>
            (inr (Some (mkSample b (gesture_id sample))), with_buffer None self)
        | None => (inr None, self)
        end
    else (inr None, self).
Proof.
  unfold magnitude. run_monad.
  destruct (gradient sample) as [e1|g]; [discriminate|].
  destruct (np_average g) as [e2|a]; [discriminate|].
  intros [= <-].
  destruct (float_ge (np_absolute a) (threshold self));
    destruct self as [T v [|] L [b|] c]; cbn [threshold verbose group
      sample_group_delay buffer sample_group_delay_counter andb negb];
    try destruct (c <? L); destruct v; reflexivity.
Qed.

(** The attributes set by [__init__] from its arguments are never assigned
    again. *)
Lemma process_sample_config sample self :
  let self' := snd (process_sample sample self) in
  threshold self' = threshold self /\ verbose self' = verbose self /\
  group self' = group self /\
  sample_group_delay self' = sample_group_delay self.
Proof.
  cbv zeta. destruct (magnitude sample) as [e|m] eqn:Hm.
  - rewrite (process_sample_raises _ _ Hm). cbn. auto.
  - rewrite (process_sample_returns _ _ Hm).
    destruct (float_ge m (threshold self)), (group self) eqn:Hg,
      (sample_group_delay_counter self <? sample_group_delay self),
      (buffer self); cbn; auto.
Qed.

(** C5. With grouping disabled, in every state, [process_sample] returns the
    sample itself when its magnitude is at least the threshold and [None]
    when it is strictly below; the buffer is left as it was in both cases. *)
Theorem grouping_disabled_passes_or_suppresses sample self :
  group self = false ->
  (crosses (threshold self) sample = true ->
   fst (process_sample sample self) = inr (Some sample))
  /\ (is_below (threshold self) sample = true ->
      fst (process_sample sample self) = inr None)
  /\ buffer (snd (process_sample sample self)) = buffer self.
Proof.
  intros Hg. repeat split.
  - intros Hc. destruct (crosses_magnitude _ _ Hc) as (m & Hm & Hge).
    rewrite (process_sample_returns _ _ Hm), Hge, Hg. reflexivity.
  - intros Hb. destruct (is_below_magnitude _ _ Hb) as (m & Hm & _ & Hge).
    rewrite (process_sample_returns _ _ Hm), Hge, Hg. reflexivity.
  - destruct (magnitude sample) as [e|m] eqn:Hm.
    + rewrite (process_sample_raises _ _ Hm). reflexivity.
    + rewrite (process_sample_returns _ _ Hm), Hg.
      destruct (float_ge m (threshold self)); reflexivity.
Qed.

(** C7. When the collaborators return ([gradient] and [np.average] do not
    raise), [process_sample] returns: it yields a value and a next state, and
    what it did is exactly one of a pass-through, a suppression or a flush. *)
Theorem process_sample_total sample self (g : Gradient) (a : float) :
  gradient sample = inr g ->
  np_average g = inr a ->
  exists out self',
    process_sample sample self = (inr out, self') /\
    exists o,
      outcome_is self sample out self' o /\
      forall o', outcome_is self sample out self' o' -> o' = o.
Proof.
  intros Hg Ha.
  assert (Hm : magnitude sample = inr (np_absolute a))
    by (unfold magnitude; rewrite Hg, Ha; reflexivity).
  rewrite (process_sample_returns _ _ Hm).
  assert (suppressed : forall self',
    exists o,
      outcome_is self sample None self' o /\
      forall o', outcome_is self sample None self' o' -> o' = o).
  { intros self'. exists Suppression. split; [reflexivity|].
    intros [| |]; cbn;
      [intros [_ [=]]|reflexivity|intros (_ & b' & _ & [=] & _)]. }
  destruct (float_ge (np_absolute a) (threshold self));
    destruct (group self) eqn:Hgr.
  - eexists; eexists; split; [reflexivity|apply suppressed].
  - eexists; eexists; split; [reflexivity|].
    exists PassThrough. split; [cbn; auto|].
    intros [| |]; cbn; [reflexivity|intros [=]|intros [H _]; congruence].
  - destruct (sample_group_delay_counter self <? sample_group_delay self).
    + eexists; eexists; split; [reflexivity|apply suppressed].
    + destruct (buffer self) as [b|] eqn:Hb.
      * eexists; eexists; split; [reflexivity|].
        exists Flush. split.
        -- cbn. split; [exact Hgr|]. exists b. auto.
        -- intros [| |]; cbn;
             [intros [H _]; congruence|intros [=]|reflexivity].
      * eexists; eexists; split; [reflexivity|apply suppressed].
  - eexists; eexists; split; [reflexivity|apply suppressed].
Qed.

(** ** [GradientThresholdMiddleware]: sequences of calls *)

Lemma run_app self (l1 l2 : list (Sample Row GestureId)) :
  run self (l1 ++ l2) =
    (fst (run self l1) ++ fst (run (snd (run self l1)) l2),
     snd (run (snd (run self l1)) l2)).
Proof.
  revert self. induction l1 as [|s l1 IH]; intros self.
  - cbn. destruct (run self l2); reflexivity.
  - cbn [app run]. destruct (process_sample s self) as [r self1].
    rewrite IH. destruct (run self1 l1) as [rs self2]. reflexivity.
Qed.

Lemma run_cons self sample (l : list (Sample Row GestureId)) :
  run self (sample :: l) =
    (fst (process_sample sample self)
       :: fst (run (snd (process_sample sample self)) l),
     snd (run (snd (process_sample sample self)) l)).
Proof.
  cbn [run]. destruct (process_sample sample self) as [r self1].
  cbn [fst snd]. destruct (run self1 l) as [rs self2]. reflexivity.
Qed.

(** Samples that cross the threshold are all buffered, and reset the
    counter. *)
Lemma run_crossing (l : list (Sample Row GestureId)) : forall self sample,
  group self = true ->
  forallb (crosses (threshold self)) (sample :: l) = true ->
  run self (sample :: l) =
    (repeat (inr None) (List.length (sample :: l)),
     absorbed self (sample :: l) 0).
Proof.
  induction l as [|s' l IH]; intros self s Hg Hall;
    cbn [forallb] in Hall; apply andb_prop in Hall as [Hs Hall];
    destruct (crosses_magnitude _ _ Hs) as (m & Hm & Hge);
    rewrite (run_cons self s), (process_sample_returns _ _ Hm), Hge, Hg;
    cbn [fst snd].
  - cbn. unfold absorbed. cbn. rewrite app_nil_r. reflexivity.
  - rewrite IH; [|exact Hg|exact Hall].
    cbn [List.length repeat fst snd]. f_equal.
    unfold absorbed, with_buffer, with_counter. cbn.
    rewrite <- !app_assoc. reflexivity.
Qed.

(** Samples below the threshold are buffered too while the counter stays
    below the limit, each adding one to it. *)
Lemma run_tolerated (l : list (Sample Row GestureId)) : forall self sample,
  group self = true ->
  forallb (is_below (threshold self)) (sample :: l) = true ->
  sample_group_delay_counter self + Z.of_nat (List.length (sample :: l))
    <= sample_group_delay self ->
  run self (sample :: l) =
    (repeat (inr None) (List.length (sample :: l)),
     absorbed self (sample :: l)
       (sample_group_delay_counter self
        + Z.of_nat (List.length (sample :: l)))).
Proof.
  induction l as [|s' l IH]; intros self s Hg Hall Hc;
    cbn [forallb] in Hall; apply andb_prop in Hall as [Hs Hall];
    destruct (is_below_magnitude _ _ Hs) as (m & Hm & _ & Hge);
    rewrite (run_cons self s), (process_sample_returns _ _ Hm), Hge, Hg;
    (replace (sample_group_delay_counter self <? sample_group_delay self)
       with true by (symmetry; apply Z.ltb_lt; cbn [List.length] in Hc; lia));
    cbn [fst snd].
  - cbn. unfold absorbed. cbn. rewrite app_nil_r. reflexivity.
  - rewrite IH; [|exact Hg|exact Hall|cbn [List.length] in *; cbn; lia].
    cbn [List.length repeat fst snd]. f_equal.
    unfold absorbed, with_buffer, with_counter. cbn [threshold verbose group
      sample_group_delay buffer sample_group_delay_counter rows].
    rewrite <- !app_assoc. cbn [map concat]. f_equal. lia.
Qed.

(** A sample below the threshold that finds the tolerance used up flushes
    the buffer if there is one, and is dropped otherwise. *)
Lemma process_sample_exhausted self sample :
  group self = true ->
  is_below (threshold self) sample = true ->
  sample_group_delay self <= sample_group_delay_counter self ->
  process_sample sample self =
    (inr match buffer self with
         | Some b => Some (mkSample b (gesture_id sample))
         | None => None
         end,
     with_buffer None self).
Proof.
  intros Hg Hs Hc.
  destruct (is_below_magnitude _ _ Hs) as (m & Hm & _ & Hge).
  rewrite (process_sample_returns _ _ Hm), Hge, Hg.
  apply Z.ltb_ge in Hc. rewrite Hc.
  destruct self as [T v g L [b|] c]; reflexivity.
Qed.

Lemma run_single self sample :
  run self [sample] =
    ([fst (process_sample sample self)], snd (process_sample sample self)).
Proof. rewrite run_cons. reflexivity. Qed.

(** The state a call leaves depends on the sample through its magnitude and
    its data only. *)
Lemma process_sample_state_by_data self (s1 s2 : Sample Row GestureId) :
  magnitude s1 = magnitude s2 ->
  data s1 = data s2 ->
  snd (process_sample s1 self) = snd (process_sample s2 self).
Proof.
  intros Hmag Hdata. destruct (magnitude s2) as [e|m] eqn:Hm2.
  - rewrite (process_sample_raises _ _ Hmag), (process_sample_raises _ _ Hm2).
    reflexivity.
  - rewrite (process_sample_returns _ _ Hmag), (process_sample_returns _ _ Hm2).
    rewrite Hdata.
    destruct (float_ge m (threshold self)), (group self),
      (sample_group_delay_counter self <? sample_group_delay self),
      (buffer self); reflexivity.
Qed.

Lemma run_state_by_data (h1 : list (Sample Row GestureId)) :
  forall h2 self,
    map magnitude h1 = map magnitude h2 ->
    map (@data _ _) h1 = map (@data _ _) h2 ->
    snd (run self h1) = snd (run self h2).
Proof.
  induction h1 as [|s1 h1 IH]; intros [|s2 h2] self Hmag Hdata;
    try discriminate.
  - reflexivity.
  - cbn [map] in Hmag, Hdata. injection Hmag as Hm Hmag.
    injection Hdata as Hd Hdata.
    rewrite !run_cons. cbn [snd].
    rewrite (process_sample_state_by_data self _ _ Hm Hd).
    apply IH; assumption.
Qed.

(** C4. A grouped sample returned by [process_sample] has the gesture
    identifier of the sample being processed, which is a sample that did not
    cross the threshold and found the tolerance used up; its data is the
    buffer. The identifiers of the samples that filled the buffer play no
    part: two histories that differ in gesture identifiers only lead to the
    same result. *)
Theorem flush_has_gesture_id_of_trigger sample self
    (out : Sample Row GestureId) self' :
  group self = true ->
  process_sample sample self = (inr (Some out), self') ->
  gesture_id out = gesture_id sample
  /\ buffer self = Some (data out)
  /\ crosses (threshold self) sample = false
  /\ sample_group_delay self <= sample_group_delay_counter self
  /\ forall start (history history' : list (Sample Row GestureId)),
       map magnitude history = map magnitude history' ->
       map (@data _ _) history = map (@data _ _) history' ->
       process_sample sample (snd (run start history))
       = process_sample sample (snd (run start history')).
Proof.
  intros Hg H.
  destruct (magnitude sample) as [e|m] eqn:Hm.
  - rewrite (process_sample_raises _ _ Hm) in H. discriminate.
  - rewrite (process_sample_returns _ _ Hm), Hg in H.
    unfold crosses. rewrite Hm.
    destruct (float_ge m (threshold self)); [discriminate|].
    destruct (sample_group_delay_counter self <? sample_group_delay self)
      eqn:Hc; [discriminate|].
    apply Z.ltb_ge in Hc.
    destruct (buffer self) as [b|]; [|discriminate].
    injection H as <- _. cbn. repeat split; try assumption.
    intros start h h' Hmag Hdata.
    rewrite (run_state_by_data h h' start Hmag Hdata). reflexivity.
Qed.

(** A burst from the initial state: any number of samples that cross the
    threshold, then as many samples below it as the tolerance allows, then one
    more below it. Every call but the last returns [None]; the last one
    returns what was buffered, if anything was. *)
Lemma run_burst T (v : bool) (highs lows : list (Sample Row GestureId)) last :
  forallb (crosses T) highs = true ->
  forallb (is_below T) lows = true ->
  is_below T last = true ->
  run (__init__ T true (Z.of_nat (List.length lows)) v)
    (highs ++ lows ++ [last]) =
    (repeat (inr None) (List.length highs + List.length lows)
       ++ [inr match highs ++ lows with
               | [] => None
               | _ :: _ =>
                   Some (mkSample (concat (map (@data _ _) (highs ++ lows)))
                           (gesture_id last))
               end],
     mkInstance T v true (Z.of_nat (List.length lows)) None
       (Z.of_nat (List.length lows))).
Proof.
  intros Hh Hl Hlast.
  destruct highs as [|h hs]; destruct lows as [|l ls].
  - cbn [app]. rewrite run_single, process_sample_exhausted;
      [reflexivity|reflexivity|exact Hlast|cbn; lia].
  - cbn [app]. rewrite app_comm_cons, run_app, run_tolerated;
      [|reflexivity|exact Hl|cbn; lia].
    cbn [fst snd]. rewrite run_single, process_sample_exhausted;
      [|reflexivity|exact Hlast|cbn; lia].
    cbn [fst snd]. reflexivity.
  - rewrite run_app, run_crossing; [|reflexivity|exact Hh].
    cbn [fst snd app]. rewrite run_single, process_sample_exhausted;
      [|reflexivity|exact Hlast|cbn; lia].
    cbn [fst snd]. rewrite Nat.add_0_r, app_nil_r. reflexivity.
  - rewrite run_app, run_crossing; [|reflexivity|exact Hh].
    cbn [fst snd]. rewrite run_app, run_tolerated;
      [|reflexivity|exact Hl|cbn; lia].
    cbn [fst snd]. rewrite run_single, process_sample_exhausted;
      [|reflexivity|exact Hlast|cbn; lia].
    cbn [fst snd]. rewrite repeat_app, <- app_assoc. f_equal.
    cbn. rewrite map_app, concat_app, <- !app_assoc. reflexivity.
Qed.

(** C1. From the initial state, with grouping enabled, threshold [T] and a
    tolerance limit equal to the number of [lows]: at least one sample that
    crosses the threshold, then the [lows] below it, then one more below it.
    The first [k + L] calls return [None]; call [k + L + 1] returns one sample
    whose data is the data of the [k + L] earlier samples, concatenated in
    arrival order, and whose gesture identifier is that of the last sample. *)
Theorem burst_is_grouped_on_next_call T (v : bool)
    (highs lows : list (Sample Row GestureId)) last :
  (1 <= List.length highs)%nat ->
  forallb (crosses T) highs = true ->
  forallb (is_below T) lows = true ->
  is_below T last = true ->
  run (__init__ T true (Z.of_nat (List.length lows)) v)
    (highs ++ lows ++ [last]) =
    (repeat (inr None) (List.length highs + List.length lows)
       ++ [inr (Some (mkSample (concat (map (@data _ _) (highs ++ lows)))
                        (gesture_id last)))],
     mkInstance T v true (Z.of_nat (List.length lows)) None
       (Z.of_nat (List.length lows))).
Proof.
  intros Hne Hh Hl Hlast. rewrite (run_burst _ _ _ _ _ Hh Hl Hlast).
  destruct highs as [|h hs]; [cbn in Hne; lia|reflexivity].
Qed.




(** The counter after one call, from the counter before it. *)
Lemma process_sample_counter self sample :
  let c := sample_group_delay_counter self in
  let c' := sample_group_delay_counter (snd (process_sample sample self)) in
  (crosses (threshold self) sample = true -> c' = 0)
  /\ (c' = 0 \/ c' = c \/ (c' = c + 1 /\ c < sample_group_delay self)).
Proof.
  cbv zeta. unfold crosses.
  destruct (magnitude sample) as [e|m] eqn:Hm.
  - rewrite (process_sample_raises _ _ Hm). cbn. split; [discriminate|auto].
  - rewrite (process_sample_returns _ _ Hm).
    destruct (float_ge m (threshold self)), (group self);
      try (cbn; split; [auto; discriminate|auto]; fail).
    destruct (sample_group_delay_counter self <? sample_group_delay self)
      eqn:Hc.
    + apply Z.ltb_lt in Hc. cbn. split; [discriminate|auto].
    + destruct (buffer self); cbn; split; auto; discriminate.
Qed.

Lemma run_config self (samples : list (Sample Row GestureId)) :
  let self' := snd (run self samples) in
  threshold self' = threshold self /\ verbose self' = verbose self /\
  group self' = group self /\
  sample_group_delay self' = sample_group_delay self.
Proof.
  cbv zeta. revert self. induction samples as [|s l IH]; intros self.
  - cbn. auto.
  - rewrite run_cons. cbn [snd].
    destruct (IH (snd (process_sample s self))) as (-> & -> & -> & ->).
    apply process_sample_config.
Qed.

Lemma run_counter self (samples : list (Sample Row GestureId)) :
  0 <= sample_group_delay_counter self <= sample_group_delay self ->
  0 <= sample_group_delay_counter (snd (run self samples))
    <= sample_group_delay self.
Proof.
  revert self. induction samples as [|s l IH]; intros self Hc.
  - exact Hc.
  - rewrite run_cons. cbn [snd].
    destruct (process_sample_config s self) as (_ & _ & _ & HL).
    rewrite <- HL. apply IH. rewrite HL.
    destruct (process_sample_counter self s) as [_ H]. cbv zeta in H. lia.
Qed.

(** C6. From construction, where it is 0, the counter stays within
    [0, sample_group_delay] after every call, for a limit that is not
    negative. One call sets it to 0 when the sample crosses the threshold, and
    otherwise leaves it or adds one to it, the latter only when it was
    strictly below the limit. *)
Theorem counter_stays_within_limit T (g : bool) (L : Z) (v : bool)
    (samples : list (Sample Row GestureId)) (n : nat) :
  0 <= L ->
  0 <= sample_group_delay_counter
         (snd (run (__init__ T g L v) (firstn n samples))) <= L
  /\ forall self sample,
       let c := sample_group_delay_counter self in
       let c' := sample_group_delay_counter (snd (process_sample sample self)) in
       (crosses (threshold self) sample = true -> c' = 0)
       /\ (c' = 0 \/ c' = c \/ (c' = c + 1 /\ c < sample_group_delay self)).
Proof.
  intros HL. split.
  - apply (run_counter (__init__ T g L v)). cbn. lia.
  - intros self sample. apply process_sample_counter.
Qed.

(** With grouping disabled, a call never assigns the buffer. *)
Lemma grouping_disabled_keeps_buffer self sample :
  group self = false ->
  buffer (snd (process_sample sample self)) = buffer self.
Proof.
  intros Hg. destruct (magnitude sample) as [e|m] eqn:Hm.
  - rewrite (process_sample_raises _ _ Hm). reflexivity.
  - rewrite (process_sample_returns _ _ Hm), Hg.
    destruct (float_ge m (threshold self)); reflexivity.
Qed.

Lemma run_grouping_disabled_keeps_buffer (l : list (Sample Row GestureId)) :
  forall self,
    group self = false -> buffer (snd (run self l)) = buffer self.
Proof.
  induction l as [|s l IH]; intros self Hg.
  - reflexivity.
  - rewrite run_cons. cbn [snd]. rewrite IH.
    + apply grouping_disabled_keeps_buffer, Hg.
    + destruct (process_sample_config s self) as (_ & _ & -> & _). exact Hg.
Qed.

(** C9. With grouping disabled, the buffer is [None] after every call of
    every sequence of calls that starts at construction. *)
Theorem grouping_disabled_never_buffers T (L : Z) (v : bool)
    (samples : list (Sample Row GestureId)) (n : nat) :
  buffer (snd (run (__init__ T false L v) (firstn n samples))) = None.
Proof.
  rewrite run_grouping_disabled_keeps_buffer; reflexivity.
Qed.

(** With a tolerance limit of 0 the counter never leaves 0. *)
Lemma zero_tolerance_state T (v : bool) (history : list (Sample Row GestureId)) :
  let self := snd (run (__init__ T true 0 v) history) in
  threshold self = T /\ group self = true /\
  sample_group_delay self = 0 /\ sample_group_delay_counter self = 0.
Proof.
  cbv zeta.
  destruct (run_config (__init__ T true 0 v) history) as (HT & _ & Hg & HL).
  assert (Hc := run_counter (__init__ T true 0 v) history).
  cbn in Hc. repeat split; try assumption. lia.
Qed.

(** With a tolerance limit of 0 the buffer only ever holds the data of
    samples that crossed the threshold. *)
Lemma zero_tolerance_buffer_content T (v : bool)
    (history : list (Sample Row GestureId)) :
  exists kept,
    incl kept history /\ forallb (crosses T) kept = true /\
    rows (buffer (snd (run (__init__ T true 0 v) history)))
      = concat (map (@data _ _) kept).
Proof.
  induction history as [|x history IH] using rev_ind.
  - exists []. repeat split. apply incl_nil_l.
  - destruct IH as (kept & Hin & Hall & Hrows).
    destruct (zero_tolerance_state T v history) as (HT & Hg & HL & Hc).
    rewrite run_app. cbn [snd]. rewrite run_single. cbn [snd].
    set (self := snd (run (__init__ T true 0 v) history)) in *.
    destruct (magnitude x) as [e|m] eqn:Hm.
    + rewrite (process_sample_raises _ _ Hm). cbn [snd].
      exists kept. repeat split; [apply incl_appl, Hin|exact Hall|exact Hrows].
    + rewrite (process_sample_returns _ _ Hm), Hg, HT, HL, Hc.
      destruct (float_ge m T) eqn:Hge.
      * exists (kept ++ [x]). cbn [snd]. repeat split.
        -- apply incl_app; [apply incl_appl, Hin|apply incl_appr, incl_refl].
        -- rewrite forallb_app, Hall. cbn. unfold crosses.
           rewrite Hm, Hge. reflexivity.
        -- cbn. rewrite Hrows, map_app, concat_app. cbn.
           rewrite app_nil_r. reflexivity.
      * cbn [Z.ltb Z.compare]. exists []. repeat split.
        -- apply incl_nil_l.
        -- destruct (buffer self) as [b|] eqn:Hb; cbn; [reflexivity|].
           rewrite Hb. reflexivity.
Qed.

(** C10. With grouping enabled and a tolerance limit of 0, in every state
    reached from construction: a sample strictly below the threshold is never
    tolerated, the call returns the grouped sample when there is a buffer and
    [None] when there is none, and leaves no buffer; a sample that crosses the
    threshold is appended to the buffer; a sample that does not cross it never
    is; and the buffer only ever holds data of samples that crossed it. *)
Theorem zero_tolerance_never_tolerates T (v : bool)
    (history : list (Sample Row GestureId)) sample :
  let self := snd (run (__init__ T true 0 v) history) in
  let self' := snd (process_sample sample self) in
  (is_below T sample = true ->
   process_sample sample self =
     (inr match buffer self with
          | Some b => Some (mkSample b (gesture_id sample))
          | None => None
          end,
      with_buffer None self))
  /\ (crosses T sample = true ->
      buffer self' = Some (rows (buffer self) ++ data sample))
  /\ (crosses T sample = false -> buffer self' = None \/ self' = self)
  /\ exists kept,
       incl kept history /\ forallb (crosses T) kept = true /\
       rows (buffer self) = concat (map (@data _ _) kept).
Proof.
  cbv zeta.
  destruct (zero_tolerance_state T v history) as (HT & Hg & HL & Hc).
  set (self := snd (run (__init__ T true 0 v) history)) in *.
  repeat split.
  - intros Hs. apply process_sample_exhausted; [exact Hg|congruence|lia].
  - intros Hs. destruct (crosses_magnitude _ _ Hs) as (m & Hm & Hge).
    rewrite (process_sample_returns _ _ Hm), HT, Hge, Hg. reflexivity.
  - unfold crosses. destruct (magnitude sample) as [e|m] eqn:Hm.
    + intros _. right. rewrite (process_sample_raises _ _ Hm). reflexivity.
    + intros Hge. rewrite (process_sample_returns _ _ Hm), HT, Hge, Hg, HL, Hc.
      cbn [Z.ltb Z.compare].
      destruct (buffer self) as [b|] eqn:Hb; [left|right]; reflexivity.
  - apply zero_tolerance_buffer_content.
Qed.

End GradientThreshold.

(** ** [DelayGrouperMiddleware] *)

(** C8. On every sample and in every state, [process_sample] of a
    [DelayGrouperMiddleware] raises [NotImplementedError] and leaves the
    object as it was. *)
Theorem delay_grouper_always_raises (Row GestureId : Type)
    (sample : Sample Row GestureId) (self : DelayGrouperMiddleware.instance) :
  DelayGrouperMiddleware.process_sample sample self =
    (inl (NotImplementedError "DelayGrouperMiddleware is not implemented yet"),
     self).
Proof. reflexivity. Qed.

(** * The properties on concrete samples

    The scenario of the specification, on one-channel samples: threshold 10,
    grouping enabled, tolerance limit 2, samples of magnitude 15, 3, 4, 2 with
    gesture identifiers g1, g1, g1, g2. *)

Import GradientThresholdMiddleware OneChannel.

(** The default instance after the first three samples of the scenario. *)
Lemma scenario_after_three :
  snd (run init_default [s1; s2; s3]) =
    mkInstance 10 false true 2 (Some [0; 15; 0; 3; 0; 4]%float) 2.
Proof. reflexivity. Qed.

(** A collaborator's exception reaches the caller and leaves the object as
    it was. *)
Lemma collaborator_exception_propagates :
  process_sample short init_default =
    (inl (CollaboratorError "ValueError"), init_default).
Proof. reflexivity. Qed.

(** C1 on the scenario ([k = 1], [L = 2]). *)
Lemma burst_is_grouped_on_next_call_scenario :
  run init_default [s1; s2; s3; s4] =
    ([inr None; inr None; inr None;
      inr (Some (mkSample [0; 15; 0; 3; 0; 4]%float (Some "g2"%string)))],
     mkInstance 10 false true 2 None 2).
Proof.
  apply (burst_is_grouped_on_next_call 10 false [s1] [s2; s3] s4);
    [cbn; lia|reflexivity|reflexivity|reflexivity].
Defined.





(** C4 on the fourth call of the scenario: the buffer was filled by samples
    labelled g1 and the grouped sample is labelled g2. *)
Lemma flush_has_gesture_id_of_trigger_scenario :
  Some "g2"%string = gesture_id s4
  /\ buffer (snd (run init_default [s1; s2; s3]))
     = Some [0; 15; 0; 3; 0; 4]%float
  /\ crosses (threshold (snd (run init_default [s1; s2; s3]))) s4 = false
  /\ sample_group_delay (snd (run init_default [s1; s2; s3]))
     <= sample_group_delay_counter (snd (run init_default [s1; s2; s3]))
  /\ forall start (history history' : list (Sample float string)),
       map magnitude history = map magnitude history' ->
       map (@data _ _) history = map (@data _ _) history' ->
       process_sample s4 (snd (run start history))
       = process_sample s4 (snd (run start history')).
Proof.
  apply (flush_has_gesture_id_of_trigger s4
           (snd (run init_default [s1; s2; s3]))
           (out := mkSample [0; 15; 0; 3; 0; 4]%float (Some "g2"%string))
           (self' := mkInstance 10 false true 2 None 2));
    reflexivity.
Defined.

(** C5 on a filter without grouping and the first sample of the scenario. *)
Lemma grouping_disabled_passes_or_suppresses_scenario :
  (crosses 10 s1 = true ->
   fst (process_sample s1 (__init__ 10 false 2 false)) = inr (Some s1))
  /\ (is_below 10 s1 = true ->
      fst (process_sample s1 (__init__ 10 false 2 false)) = inr None)
  /\ buffer (snd (process_sample s1 (__init__ 10 false 2 false))) = None.
Proof.
  apply (grouping_disabled_passes_or_suppresses s1 (__init__ 10 false 2 false)).
  reflexivity.
Defined.

(** C6 on the scenario. *)
Lemma counter_stays_within_limit_scenario :
  0 <= sample_group_delay_counter
         (snd (run init_default (firstn 4 [s1; s2; s3; s4]))) <= 2
  /\ forall (self : instance float) (sample : Sample float string),
       (crosses (threshold self) sample = true ->
        sample_group_delay_counter (snd (process_sample sample self)) = 0)
       /\ (sample_group_delay_counter (snd (process_sample sample self)) = 0
           \/ sample_group_delay_counter (snd (process_sample sample self))
              = sample_group_delay_counter self
           \/ (sample_group_delay_counter (snd (process_sample sample self))
                = sample_group_delay_counter self + 1
               /\ sample_group_delay_counter self < sample_group_delay self)).
Proof.
  apply (@counter_stays_within_limit float string ops 10 true 2 false
           [s1; s2; s3; s4] 4).
  lia.
Defined.

(** C7 on the first call of the scenario. *)
Lemma process_sample_total_scenario :
  exists out self',
    process_sample s1 init_default = (inr out, self') /\
    exists o,
      outcome_is init_default s1 out self' o /\
      forall o', outcome_is init_default s1 out self' o' -> o' = o.
Proof.
  apply (@process_sample_total float string ops s1 init_default
           [15; 15]%float 15%float);
    reflexivity.
Defined.

(** * Further properties of the middlewares *)

(** ** Float comparison: NaN and absolute values *)

Lemma SFcompare_refl (x : spec_float) :
  x <> S754_nan -> SFcompare x x = Some Eq.
Proof.
  destruct x as [s|s| |s m e]; cbn; intros H; try congruence.
  - destruct s; reflexivity.
  - rewrite Z.compare_refl, Pos.compare_cont_refl. destruct s; reflexivity.
Qed.

Lemma is_nan_Prim2SF (x : float) :
  PrimFloat.is_nan x = true <-> Prim2SF x = S754_nan.
Proof.
  unfold PrimFloat.is_nan. rewrite FloatAxioms.eqb_spec. unfold SFeqb. split.
  - intros H. destruct (Prim2SF x) eqn:E; try reflexivity;
      rewrite SFcompare_refl in H by discriminate; discriminate.
  - intros ->. reflexivity.
Qed.

(** A comparison with NaN on either side is false. *)
Lemma nan_compares_false (m T : float) :
  PrimFloat.is_nan m = true \/ PrimFloat.is_nan T = true ->
  float_ge m T = false /\ float_lt m T = false.
Proof.
  unfold float_ge, float_lt.
  rewrite FloatAxioms.leb_spec, FloatAxioms.ltb_spec.
  unfold SFleb, SFltb.
  intros [H|H]; apply is_nan_Prim2SF in H; rewrite H;
    destruct (Prim2SF T), (Prim2SF m); cbn; auto; discriminate.
Qed.

(** An absolute value that is a number is at least any [T <= 0]. *)
Lemma abs_ge_nonpositive (a T : float) :
  PrimFloat.leb T 0 = true ->
  PrimFloat.is_nan (np_absolute a) = false ->
  float_ge (np_absolute a) T = true.
Proof.
  unfold float_ge, np_absolute. rewrite !FloatAxioms.leb_spec.
  intros HT Hnan.
  assert (Ha : Prim2SF (abs a) <> S754_nan).
  { intros E. apply is_nan_Prim2SF in E. congruence. }
  rewrite abs_spec in *.
  change (Prim2SF 0) with (S754_zero false) in HT.
  unfold SFleb in *.
  destruct (Prim2SF T) as [s|[|]| |[|] m e],
    (Prim2SF a) as [s'|s'| |s' m' e'];
    cbn in *; try congruence; try reflexivity.
Qed.

Section GradientThresholdFurther.
Context {Row GestureId : Type} {sample_ops : SampleOps Row GestureId}.

Implicit Types (sample : Sample Row GestureId) (self : instance Row).
Implicit Types (T m : float) (e : exn).

Ltac read_attributes :=
  cbn [with_buffer with_counter threshold verbose group sample_group_delay
       buffer sample_group_delay_counter rows app].

Lemma magnitude_is_absolute sample m :
  magnitude sample = inr m -> exists a, m = np_absolute a.
Proof.
  unfold magnitude. destruct (gradient sample) as [e|g]; [discriminate|].
  destruct (np_average g) as [e|a]; [discriminate|].
  intros [= <-]. exists a. reflexivity.
Qed.

(** X9. A sample whose magnitude is NaN, or any sample when the threshold is
    NaN, neither crosses the threshold nor is below it. The code takes the
    branch of a sample that did not cross: with grouping disabled the sample
    is suppressed, and with grouping enabled and the tolerance used up it
    flushes the buffer like a sample below the threshold. *)
Theorem nan_magnitude_never_crosses sample self m :
  magnitude sample = inr m ->
  PrimFloat.is_nan m = true \/ PrimFloat.is_nan (threshold self) = true ->
  crosses (threshold self) sample = false
  /\ is_below (threshold self) sample = false
  /\ (group self = false -> process_sample sample self = (inr None, self))
  /\ (group self = true ->
      sample_group_delay self <= sample_group_delay_counter self ->
      process_sample sample self =
        match buffer self with
        | Some b =>
            (inr (Some (mkSample b (gesture_id sample))),
             with_buffer None self)
        | None => (inr None, self)
        end).
Proof.
  intros Hm Hnan. destruct (nan_compares_false _ _ Hnan) as [Hge Hlt].
  unfold crosses, is_below. rewrite Hm, (process_sample_returns _ _ Hm), Hge.
  repeat split; try assumption.
  - intros ->. reflexivity.
  - intros -> Hc. apply Z.ltb_ge in Hc. rewrite Hc. reflexivity.
Qed.

(** X10. With a threshold that is zero or negative, every sample whose
    magnitude is a number crosses the threshold: with grouping disabled every
    such sample is returned as it is. *)
Theorem nonpositive_threshold_never_filters sample self m :
  PrimFloat.leb (threshold self) 0 = true ->
  magnitude sample = inr m ->
  PrimFloat.is_nan m = false ->
  crosses (threshold self) sample = true
  /\ (group self = false ->
      process_sample sample self = (inr (Some sample), with_counter 0 self)).
Proof.
  intros HT Hm Hnan. destruct (magnitude_is_absolute _ Hm) as [a ->].
  assert (Hge := @abs_ge_nonpositive a _ HT Hnan).
  unfold crosses. rewrite Hm, (process_sample_returns _ _ Hm), Hge.
  split; [reflexivity|]. intros ->. reflexivity.
Qed.

(** The results of a run are as many as the samples. *)
Lemma run_length (l : list (Sample Row GestureId)) :
  forall self, List.length (fst (run self l)) = List.length l.
Proof.
  induction l as [|s l IH]; intros self; [reflexivity|].
  rewrite run_cons. cbn. rewrite IH. reflexivity.
Qed.

(** X1. When a collaborator raises on a sample, [process_sample] raises the
    same exception and leaves the object as it was; in a sequence of calls the
    sample is skipped: the other calls return, and the object ends, as if the
    sample had not been fed. *)
Theorem raising_sample_is_skipped self
    (earlier later : list (Sample Row GestureId)) sample e :
  magnitude sample = inl e ->
  process_sample sample self = (inl e, self)
  /\ snd (run self (earlier ++ sample :: later))
     = snd (run self (earlier ++ later))
  /\ fst (run self (earlier ++ sample :: later))
     = firstn (List.length earlier) (fst (run self (earlier ++ later)))
       ++ inl e
       :: skipn (List.length earlier) (fst (run self (earlier ++ later))).
Proof.
  intros Hm. assert (Hp := process_sample_raises sample self Hm).
  split; [exact Hp|].
  rewrite !run_app. cbn [fst snd].
  rewrite run_cons, (process_sample_raises sample _ Hm). cbn [fst snd].
  split; [reflexivity|].
  rewrite <- (run_length earlier self).
  rewrite firstn_app, skipn_app, Nat.sub_diag, firstn_all, skipn_all.
  cbn. rewrite app_nil_r. reflexivity.
Qed.

(** X2. No call assigns the attributes that [__init__] sets from its
    arguments: after every call of every sequence the threshold, the verbose
    and group flags and the tolerance limit are those of the start. *)
Theorem configuration_is_never_reassigned self
    (samples : list (Sample Row GestureId)) (n : nat) :
  threshold (snd (run self (firstn n samples))) = threshold self
  /\ verbose (snd (run self (firstn n samples))) = verbose self
  /\ group (snd (run self (firstn n samples))) = group self
  /\ sample_group_delay (snd (run self (firstn n samples)))
     = sample_group_delay self.
Proof. apply (run_config self (firstn n samples)). Qed.

(** X3. With grouping disabled the middleware is a filter without memory:
    whatever the state, the result of each call of a sequence depends on its
    own sample only: the collaborator's exception, the sample itself when
    its magnitude is at least the threshold, [None] otherwise. *)
Theorem grouping_disabled_is_memoryless self
    (samples : list (Sample Row GestureId)) :
  group self = false ->
  fst (run self samples) =
    map (fun sample =>
           match magnitude sample with
           | inl e => inl e
           | inr m =>
               inr (if float_ge m (threshold self) then Some sample else None)
           end) samples.
Proof.
  revert self. induction samples as [|s l IH]; intros self Hg; [reflexivity|].
  rewrite run_cons. cbn [fst map].
  destruct (process_sample_config s self) as (HT & _ & Hg' & _).
  rewrite IH by congruence. rewrite HT. f_equal.
  destruct (magnitude s) as [e|m] eqn:Hm.
  - rewrite (process_sample_raises _ _ Hm). reflexivity.
  - rewrite (process_sample_returns _ _ Hm), Hg.
    destruct (float_ge m (threshold self)); reflexivity.
Qed.

(** X4. With grouping enabled, samples that all cross the threshold are
    never returned: every call returns [None], and the buffer holds what it
    held followed by the data of all of them, in arrival order. *)
Theorem crossing_stream_is_never_emitted self
    (samples : list (Sample Row GestureId)) :
  group self = true ->
  forallb (crosses (threshold self)) samples = true ->
  fst (run self samples) = repeat (inr None) (List.length samples)
  /\ rows (buffer (snd (run self samples)))
     = rows (buffer self) ++ concat (map (@data _ _) samples)
  /\ (samples <> [] ->
      buffer (snd (run self samples)) <> None
      /\ sample_group_delay_counter (snd (run self samples)) = 0).
Proof.
  intros Hg Hall. destruct samples as [|s l].
  - cbn. rewrite app_nil_r.
    split; [reflexivity|split; [reflexivity|intros Hne; contradiction]].
  - rewrite (run_crossing l self s Hg Hall). cbn [fst snd].
    split; [reflexivity|split; [reflexivity|]].
    intros _. split; [discriminate|reflexivity].
Qed.

(** What a call that returned a sample, with grouping enabled, has done. *)
Lemma flush_inversion sample self (out : Sample Row GestureId) self' :
  group self = true ->
  process_sample sample self = (inr (Some out), self') ->
  exists b,
    buffer self = Some b /\ out = mkSample b (gesture_id sample)
    /\ self' = with_buffer None self
    /\ sample_group_delay self <= sample_group_delay_counter self.
Proof.
  intros Hg H. destruct (magnitude sample) as [e|m] eqn:Hm.
  - rewrite (process_sample_raises _ _ Hm) in H. discriminate.
  - rewrite (process_sample_returns _ _ Hm), Hg in H.
    destruct (float_ge m (threshold self)); [discriminate|].
    destruct (sample_group_delay_counter self <? sample_group_delay self)
      eqn:Hc; [discriminate|].
    apply Z.ltb_ge in Hc.
    destruct (buffer self) as [b|]; [|discriminate].
    injection H as <- <-. exists b. auto.
Qed.

(** X5. With grouping enabled, the call that follows a flush never returns a
    sample: it returns [None], or raises what a collaborator raised. *)
Theorem no_flush_right_after_flush sample self
    (out : Sample Row GestureId) self' next :
  group self = true ->
  process_sample sample self = (inr (Some out), self') ->
  fst (process_sample next self') = inr None
  \/ exists e, process_sample next self' = (inl e, self').
Proof.
  intros Hg H.
  destruct (flush_inversion _ _ Hg H) as (b & _ & _ & -> & Hc).
  destruct (magnitude next) as [e|m] eqn:Hm.
  - right. exists e. apply process_sample_raises, Hm.
  - left. rewrite (process_sample_returns _ _ Hm). read_attributes.
    apply Z.ltb_ge in Hc. rewrite Hg, Hc.
    destruct (float_ge m (threshold self)); reflexivity.
Qed.

(** X6. With grouping enabled, a sample that crosses the threshold right
    after a flush starts a new buffer, which holds its data only, and sets the
    counter to 0. *)
Theorem sample_after_flush_starts_new_group sample self
    (out : Sample Row GestureId) self' next :
  group self = true ->
  process_sample sample self = (inr (Some out), self') ->
  crosses (threshold self) next = true ->
  process_sample next self' =
    (inr None, with_buffer (Some (data next)) (with_counter 0 self)).
Proof.
  intros Hg H Hn.
  destruct (flush_inversion _ _ Hg H) as (b & _ & _ & -> & _).
  destruct (crosses_magnitude _ _ Hn) as (m & Hm & Hge).
  rewrite (process_sample_returns _ _ Hm). read_attributes.
  rewrite Hge, Hg. reflexivity.
Qed.

(** X7. From the initial state, with grouping enabled and a tolerance limit
    of at least 1, samples below the threshold are buffered without any sample
    having crossed it: as many as the limit return [None], and the next one
    below the threshold returns their data as one grouped sample. *)
Theorem initial_tolerance_buffers_below_threshold T (v : bool)
    (lows : list (Sample Row GestureId)) last :
  (1 <= List.length lows)%nat ->
  forallb (is_below T) lows = true ->
  is_below T last = true ->
  run (__init__ T true (Z.of_nat (List.length lows)) v) (lows ++ [last]) =
    (repeat (inr None) (List.length lows)
       ++ [inr (Some (mkSample (concat (map (@data _ _) lows))
                        (gesture_id last)))],
     mkInstance T v true (Z.of_nat (List.length lows)) None
       (Z.of_nat (List.length lows))).
Proof.
  intros Hne Hl Hlast.
  assert (H := run_burst T v [] lows last eq_refl Hl Hlast).
  cbn [app List.length Nat.add] in H. rewrite H.
  destruct lows as [|l ls]; [cbn in Hne; lia|reflexivity].
Qed.

(** One sample that crosses the threshold followed by samples below it, no
    more than the tolerance limit: all are buffered. *)
Lemma run_block self sample (lows : list (Sample Row GestureId)) :
  group self = true ->
  crosses (threshold self) sample = true ->
  forallb (is_below (threshold self)) lows = true ->
  Z.of_nat (List.length lows) <= sample_group_delay self ->
  run self (sample :: lows) =
    (repeat (inr None) (List.length (sample :: lows)),
     absorbed self (sample :: lows) (Z.of_nat (List.length lows))).
Proof.
  intros Hg Hs Hl HL.
  destruct (crosses_magnitude _ _ Hs) as (m & Hm & Hge).
  rewrite run_cons, (process_sample_returns _ _ Hm), Hge, Hg. cbn [fst snd].
  destruct lows as [|l ls].
  - cbn. unfold absorbed. cbn. rewrite app_nil_r. reflexivity.
  - rewrite run_tolerated; [|exact Hg|exact Hl|cbn in *; lia].
    cbn [fst snd List.length repeat]. f_equal.
    unfold absorbed, with_buffer, with_counter. cbn [threshold verbose group
      sample_group_delay buffer sample_group_delay_counter rows].
    rewrite <- !app_assoc. cbn [map concat]. f_equal; lia.
Qed.

(** X8. With grouping enabled, from any state, a sequence made of blocks,
    each block one sample that crosses the threshold followed by no more
    samples below it than the tolerance limit, is not split: every call
    returns [None] and the buffer receives the data of all the samples, in
    arrival order. *)
Theorem dips_within_tolerance_do_not_split
    (blocks : list (Sample Row GestureId * list (Sample Row GestureId))) :
  forall self,
  group self = true ->
  forallb (fun b =>
             crosses (threshold self) (fst b)
             && forallb (is_below (threshold self)) (snd b)
             && (Z.of_nat (List.length (snd b)) <=? sample_group_delay self))
    blocks = true ->
  fst (run self (flat_map (fun b => fst b :: snd b) blocks))
  = repeat (inr None)
      (List.length (flat_map (fun b => fst b :: snd b) blocks))
  /\ rows (buffer (snd (run self (flat_map (fun b => fst b :: snd b) blocks))))
     = rows (buffer self)
       ++ concat (map (@data _ _) (flat_map (fun b => fst b :: snd b) blocks)).
Proof.
  induction blocks as [|[h lows] blocks IH]; intros self Hg Hall.
  - cbn. rewrite app_nil_r. auto.
  - cbn [forallb fst snd] in Hall.
    apply andb_prop in Hall as [Hb Hall].
    apply andb_prop in Hb as [Hb HL]. apply andb_prop in Hb as [Hh Hl].
    apply Z.leb_le in HL.
    cbn [flat_map fst snd]. rewrite run_app, (@run_block self h lows Hg Hh Hl HL).
    cbn [fst snd].
    destruct (IH (absorbed self (h :: lows) (Z.of_nat (List.length lows))))
      as [Hout Hbuf]; [exact Hg|exact Hall|].
    rewrite Hout, Hbuf. split.
    + rewrite <- repeat_app, <- length_app. reflexivity.
    + cbn [absorbed with_buffer buffer rows].
      rewrite map_app, concat_app, <- !app_assoc. reflexivity.
Qed.

(** X13. With grouping enabled, in any state: at least one sample that
    crosses the threshold, then as many samples below it as the tolerance
    limit, then one more below it. Every call but the last returns [None];
    the last returns one sample holding what the buffer held before followed
    by the data of all the earlier samples, and leaves no buffer. In
    particular an episode that starts without a buffer is returned on its
    own, whatever was flushed before. *)
Theorem burst_from_any_state self
    (highs lows : list (Sample Row GestureId)) last :
  group self = true ->
  (1 <= List.length highs)%nat ->
  sample_group_delay self = Z.of_nat (List.length lows) ->
  forallb (crosses (threshold self)) highs = true ->
  forallb (is_below (threshold self)) lows = true ->
  is_below (threshold self) last = true ->
  run self (highs ++ lows ++ [last]) =
    (repeat (inr None) (List.length highs + List.length lows)
       ++ [inr (Some (mkSample
                        (rows (buffer self)
                         ++ concat (map (@data _ _) (highs ++ lows)))
                        (gesture_id last)))],
     with_buffer None (with_counter (sample_group_delay self) self)).
Proof.
  intros Hg Hne HL Hh Hl Hlast.
  destruct highs as [|h hs]; [cbn in Hne; lia|].
  rewrite run_app, (run_crossing hs self h Hg Hh). cbn [fst snd].
  rewrite repeat_app, <- app_assoc. destruct lows as [|l ls].
  - cbn [app]. rewrite run_single, process_sample_exhausted;
      [|exact Hg|exact Hlast|unfold absorbed; read_attributes; cbn in HL; lia].
    cbn [fst snd]. rewrite app_nil_r. cbn in HL. rewrite HL. reflexivity.
  - rewrite run_app, run_tolerated;
      [|exact Hg|exact Hl|unfold absorbed; read_attributes; lia].
    cbn [fst snd]. rewrite run_single, process_sample_exhausted;
      [|exact Hg|exact Hlast|unfold absorbed; read_attributes; lia].
    cbn [fst snd]. rewrite map_app, concat_app, HL.
    unfold absorbed, with_buffer, with_counter.
    cbn [threshold verbose group sample_group_delay buffer
         sample_group_delay_counter rows].
    rewrite <- !app_assoc. reflexivity.
Qed.

(** X11. On samples whose rows have the one row type of the model (one
    channel count, so that [np.concatenate] has arrays of matching shape),
    [add_sample_to_buffer] called on one sample after the other leaves a
    buffer that holds what it held before followed by the data of the
    samples, in the order of the calls, and that is not [None] after one call
    or more; [delete_buffer] after them leaves the object as [delete_buffer]
    alone does. *)
Theorem buffer_accumulates_in_call_order self
    (samples : list (Sample Row GestureId)) :
  rows (buffer (fold_left (fun st sample =>
                             snd (add_sample_to_buffer sample st))
                  samples self))
  = rows (buffer self) ++ concat (map (@data _ _) samples)
  /\ (samples <> [] ->
      buffer (fold_left (fun st sample =>
                           snd (add_sample_to_buffer sample st))
                samples self) <> None)
  /\ delete_buffer (fold_left (fun st sample =>
                                 snd (add_sample_to_buffer sample st))
                      samples self)
     = (inr tt, with_buffer None self).
Proof.
  assert (Hstep : forall sample st,
    add_sample_to_buffer sample st =
      (inr tt, with_buffer (Some (rows (buffer st) ++ data sample)) st)).
  { intros sample st. cbv [add_sample_to_buffer bind get set_buffer].
    destruct (buffer st); reflexivity. }
  assert (Hfold : forall l st, l <> [] ->
    fold_left (fun st sample => snd (add_sample_to_buffer sample st)) l st
    = with_buffer (Some (rows (buffer st) ++ concat (map (@data _ _) l))) st).
  { induction l as [|s l IH]; intros st Hne; [contradiction|].
    cbn [fold_left]. rewrite Hstep. cbn [snd]. destruct l as [|s' l].
    - cbn. rewrite app_nil_r. reflexivity.
    - rewrite IH by discriminate. read_attributes.
      unfold with_buffer. read_attributes.
      cbn [map concat]. rewrite <- !app_assoc. reflexivity. }
  split; [|split].
  - destruct samples as [|s l].
    + cbn. rewrite app_nil_r. reflexivity.
    + rewrite Hfold by discriminate. reflexivity.
  - intros Hne. rewrite Hfold by exact Hne. discriminate.
  - destruct samples as [|s l]; [reflexivity|].
    rewrite Hfold by discriminate. reflexivity.
Qed.



End GradientThresholdFurther.

(** ** The further properties on concrete samples *)

(** X1 on a sample of a single reading, between two samples of the
    scenario. *)
Lemma raising_sample_is_skipped_scenario :
  process_sample short init_default =
    (inl (CollaboratorError "ValueError"), init_default)
  /\ snd (run init_default ([s1] ++ short :: [s2]))
     = snd (run init_default ([s1] ++ [s2]))
  /\ fst (run init_default ([s1] ++ short :: [s2]))
     = firstn 1 (fst (run init_default ([s1] ++ [s2])))
       ++ inl (CollaboratorError "ValueError")
       :: skipn 1 (fst (run init_default ([s1] ++ [s2]))).
Proof.
  apply (@raising_sample_is_skipped float string ops init_default [s1] [s2]
           short (CollaboratorError "ValueError")).
  reflexivity.
Defined.

(** X3 on a filter without grouping. *)
Lemma grouping_disabled_is_memoryless_scenario :
  fst (run (__init__ 10 false 2 false) [s1; s2; short; s4]) =
    [inr (Some s1); inr None; inl (CollaboratorError "ValueError"); inr None].
Proof.
  apply (@grouping_disabled_is_memoryless float string ops
           (__init__ 10 false 2 false) [s1; s2; short; s4]).
  reflexivity.
Defined.

(** X4 on two samples of magnitude 15. *)
Lemma crossing_stream_is_never_emitted_scenario :
  fst (run init_default [s1; s1]) = [inr None; inr None]
  /\ rows (buffer (snd (run init_default [s1; s1])))
     = [0; 15; 0; 15]%float
  /\ ([s1; s1] <> [] ->
      buffer (snd (run init_default [s1; s1])) <> None
      /\ sample_group_delay_counter (snd (run init_default [s1; s1])) = 0).
Proof.
  apply (@crossing_stream_is_never_emitted float string ops init_default
           [s1; s1]);
    reflexivity.
Defined.

(** X5 on the call that follows the flush of the scenario. *)
Lemma no_flush_right_after_flush_scenario :
  fst (process_sample s4 (mkInstance 10 false true 2 None 2)) = inr None
  \/ exists e,
       process_sample s4 (mkInstance 10 false true 2 None 2)
       = (inl e, mkInstance 10 false true 2 None 2).
Proof.
  apply (@no_flush_right_after_flush float string ops s4
           (snd (run init_default [s1; s2; s3]))
           (mkSample [0; 15; 0; 3; 0; 4]%float (Some "g2"%string))
           (mkInstance 10 false true 2 None 2) s4);
    reflexivity.
Defined.

(** X6 on a sample of magnitude 15 fed after the flush of the scenario. *)
Lemma sample_after_flush_starts_new_group_scenario :
  process_sample s1 (mkInstance 10 false true 2 None 2) =
    (inr None, mkInstance 10 false true 2 (Some [0; 15]%float) 0).
Proof.
  exact (@sample_after_flush_starts_new_group float string ops s4
           (snd (run init_default [s1; s2; s3]))
           (mkSample [0; 15; 0; 3; 0; 4]%float (Some "g2"%string))
           (mkInstance 10 false true 2 None 2) s1
           eq_refl eq_refl eq_refl).
Defined.

(** X7 on the default instance and the three samples of the scenario that
    are below the threshold. *)
Lemma initial_tolerance_buffers_below_threshold_scenario :
  run init_default ([s2; s3] ++ [s4]) =
    ([inr None; inr None;
      inr (Some (mkSample [0; 3; 0; 4]%float (Some "g2"%string)))],
     mkInstance 10 false true 2 None 2).
Proof.
  apply (@initial_tolerance_buffers_below_threshold float string ops 10 false
           [s2; s3] s4);
    [cbn; lia|reflexivity|reflexivity].
Defined.

(** X8 on two movements with dips of two samples and of one sample. *)
Lemma dips_within_tolerance_do_not_split_scenario :
  fst (run init_default [s1; s2; s3; s1; s2])
  = [inr None; inr None; inr None; inr None; inr None]
  /\ rows (buffer (snd (run init_default [s1; s2; s3; s1; s2])))
     = [0; 15; 0; 3; 0; 4; 0; 15; 0; 3]%float.
Proof.
  apply (@dips_within_tolerance_do_not_split float string ops
           [(s1, [s2; s3]); (s1, [s2])] init_default);
    reflexivity.
Defined.

(** X9 on a sample with a NaN reading, without grouping and with it. *)
Lemma nan_magnitude_never_crosses_scenario :
  crosses 10 (mkSample [0; nan]%float (Some "g1"%string)) = false
  /\ is_below 10 (mkSample [0; nan]%float (Some "g1"%string)) = false
  /\ (group (snd (run init_default [s1; s2; s3])) = false ->
      process_sample (mkSample [0; nan]%float (Some "g1"%string))
        (snd (run init_default [s1; s2; s3]))
      = (inr None, snd (run init_default [s1; s2; s3])))
  /\ (group (snd (run init_default [s1; s2; s3])) = true ->
      sample_group_delay (snd (run init_default [s1; s2; s3]))
      <= sample_group_delay_counter (snd (run init_default [s1; s2; s3])) ->
      process_sample (mkSample [0; nan]%float (Some "g1"%string))
        (snd (run init_default [s1; s2; s3]))
      = (inr (Some (mkSample [0; 15; 0; 3; 0; 4]%float (Some "g1"%string))),
         mkInstance 10 false true 2 None 2)).
Proof.
  exact (@nan_magnitude_never_crosses float string ops
           (mkSample [0; nan]%float (Some "g1"%string))
           (snd (run init_default [s1; s2; s3])) nan
           eq_refl (or_introl eq_refl)).
Defined.

(** X10 on a filter without grouping whose threshold is 0. *)
Lemma nonpositive_threshold_never_filters_scenario :
  crosses 0 s2 = true
  /\ (group (__init__ 0 false 2 false : instance float) = false ->
      process_sample s2 (__init__ 0 false 2 false)
      = (inr (Some s2), __init__ 0 false 2 false)).
Proof.
  exact (@nonpositive_threshold_never_filters float string ops s2
           (__init__ 0 false 2 false) 3%float eq_refl eq_refl eq_refl).
Defined.


(** X13 on a second movement, fed after the flush of the scenario. *)
Lemma burst_from_any_state_scenario :
  run (mkInstance 10 false true 2 None 2) ([s1] ++ [s2; s3] ++ [s4]) =
    ([inr None; inr None; inr None;
      inr (Some (mkSample [0; 15; 0; 3; 0; 4]%float (Some "g2"%string)))],
     mkInstance 10 false true 2 None 2).
Proof.
  apply (@burst_from_any_state float string ops
           (mkInstance 10 false true 2 None 2) [s1] [s2; s3] s4);
    [reflexivity|cbn; lia|reflexivity|reflexivity|reflexivity|reflexivity].
Defined.
